(** * Shadow validation of block chunks (nearcore, chain/client,
    [stateless_validation/shadow_validate.rs]).

    Shallow embedding of [Client::shadow_validate_block_chunks] and
    [Client::shadow_validate_chunk].  The chain store, the runtime adapter,
    the witness codec and the two validation entry points are collaborators
    of the file: they are fields of the [Client] record below, so every
    theorem holds for every behaviour of them.  The side effects of the two
    functions (the failure counter, the rayon pool, the log and the calls to
    collaborators) are threaded through a small state, error and panic
    monad. *)

From Stdlib Require Import List String Ascii Bool Arith Lia.
Import ListNotations.

(** ** Data model *)

Definition CryptoHash := nat.
Definition ShardId := nat.
Definition BlockHeight := nat.
Definition StateRoot := CryptoHash.
(** [SignedTransaction], by its hash. *)
Definition SignedTransaction := nat.
(** [PartialState]: the trie nodes recorded by a storage proof. *)
Definition PartialState := list nat.
(** [StateRecord] of a sandbox state patch. *)
Definition StateRecord := nat.

(** [near_chain_primitives::Error], the constructors this file meets. *)
Inductive Error :=
| DBNotFoundErr (what : string)
| ChunkMissing (h : CryptoHash)
| InvalidChunkStateWitness (msg : string)
| IOErr (msg : string)
| Other (msg : string).

(** Rust's [Result<A, E>]. *)
Inductive result (A E : Type) :=
| Ok (a : A)
| Err (e : E).
Arguments Ok {A E} a.
Arguments Err {A E} e.

Record ShardChunkHeader := {
  chunk_hash : CryptoHash;
  shard_id : ShardId;
  height_created : BlockHeight;
  height_included : BlockHeight;
  prev_state_root : StateRoot
}.

(** [ShardChunkHeader::is_new_chunk]: the chunk was included at this
    height (a chunk carried over from an earlier block keeps its older
    [height_included]). *)
Definition is_new_chunk (h : ShardChunkHeader) (block_height : BlockHeight) : bool :=
  Nat.eqb (height_included h) block_height.

Record BlockHeader := {
  header_hash : CryptoHash;
  prev_hash : CryptoHash;
  height : BlockHeight
}.

Record Block := {
  block_header : BlockHeader;
  block_chunks : list ShardChunkHeader
}.

Definition block_hash (b : Block) : CryptoHash := header_hash (block_header b).

Record ShardChunk := {
  chunk_header : ShardChunkHeader;
  chunk_txs : list SignedTransaction
}.

Definition chunk_shard_id (c : ShardChunk) : ShardId := shard_id (chunk_header c).
Definition chunk_chunk_hash (c : ShardChunk) : CryptoHash := chunk_hash (chunk_header c).
Definition chunk_cloned_header (c : ShardChunk) : ShardChunkHeader := chunk_header c.
Definition chunk_transactions (c : ShardChunk) : list SignedTransaction := chunk_txs c.

(** [near_chain::types::StorageDataSource]. *)
Inductive StorageDataSource :=
| Db
| DbTrieOnly
| Recorded (storage : PartialState).

(** [SandboxStatePatch], whose [Default] is the empty patch. *)
Definition SandboxStatePatch := list StateRecord.
Definition default_state_patch : SandboxStatePatch := [].

(** [near_chain::types::RuntimeStorageConfig]. *)
Record RuntimeStorageConfig := {
  state_root : StateRoot;
  use_flat_storage : bool;
  source : StorageDataSource;
  state_patch : SandboxStatePatch
}.

(** [PreparedTransactions] returned by [validate_prepared_transactions]. *)
Record PreparedTransactions := {
  prepared_transactions : list SignedTransaction;
  storage_proof : option PartialState
}.

(** An [AccountId] is a validated string. *)
Definition AccountId := string.

Record ChunkStateWitness := {
  chunk_producer : AccountId;
  witness_prev_block_header : BlockHeader;
  main_state_transition_prev_chunk_header : ShardChunkHeader;
  witness_chunk : ShardChunk;
  new_transactions_validation_state : option PartialState
}.

Definition EncodedChunkStateWitness := list nat.
Definition size_bytes (e : EncodedChunkStateWitness) : nat := List.length e.

(** Output of [pre_validate_chunk_state_witness], opaque here. *)
Definition PreValidationOutput := nat.

(** ** Account identifiers ([near-account-id], [AccountId::from_str]) *)

(** Errors of [AccountId::validate]. *)
Inductive ParseAccountError :=
| TooShort
| TooLong
| InvalidChar (pos : nat) (c : ascii)
| RedundantSeparator (pos : nat).

Definition MIN_LEN := 2.
Definition MAX_LEN := 64.

(** Class of a character: [Some false] for [a..z] and [0..9],
    [Some true] for the separators [-], [_] and [.], [None] otherwise. *)
Definition char_is_separator (c : ascii) : option bool :=
  let n := nat_of_ascii c in
  if (Nat.leb (nat_of_ascii "a") n && Nat.leb n (nat_of_ascii "z"))
     || (Nat.leb (nat_of_ascii "0") n && Nat.leb n (nat_of_ascii "9"))
  then Some false
  else if Ascii.eqb c "-" || Ascii.eqb c "_" || Ascii.eqb c "."
  then Some true
  else None.

(** The character loop of [validate]: the state is the position and
    whether the previous character was a separator (true at the start). *)
Fixpoint validate_chars (i : nat) (last_char_is_separator : bool) (s : string)
  : result unit ParseAccountError :=
  match s with
  | EmptyString =>
      if last_char_is_separator then Err (RedundantSeparator (pred i)) else Ok tt
  | String c rest =>
      match char_is_separator c with
      | None => Err (InvalidChar i c)
      | Some current_char_is_separator =>
          if current_char_is_separator && last_char_is_separator
          then Err (RedundantSeparator i)
          else validate_chars (S i) current_char_is_separator rest
      end
  end.

Definition validate_account_id (account_id : string) : result unit ParseAccountError :=
  if Nat.ltb (String.length account_id) MIN_LEN then Err TooShort
  else if Nat.ltb MAX_LEN (String.length account_id) then Err TooLong
  else validate_chars 0 true account_id.

(** [<AccountId as FromStr>::from_str]. *)
Definition parse_account_id (account_id : string) : result AccountId ParseAccountError :=
  match validate_account_id account_id with
  | Ok _ => Ok account_id
  | Err e => Err e
  end.

(** ** Collaborators of [Client]

    The fields the two functions read from [self]: the compile-time
    feature, the node configuration flag, and the chain, runtime, codec and
    validation entry points they call. *)
Record Client := {
  (** [cfg!(feature = "shadow_chunk_validation")] *)
  feature_shadow_chunk_validation : bool;
  (** [self.config.save_latest_witnesses] *)
  save_latest_witnesses : bool;
  (** [self.chain.get_block] *)
  get_block : CryptoHash -> result Block Error;
  (** [self.chain.get_chunk_clone_from_header] *)
  get_chunk_clone_from_header : ShardChunkHeader -> result ShardChunk Error;
  (** [self.chain.get_chunk] *)
  get_chunk : CryptoHash -> result ShardChunk Error;
  (** [validate_prepared_transactions(&self.chain, runtime, header, config,
      transactions, last_chunk_transactions)] *)
  validate_prepared_transactions :
    ShardChunkHeader -> RuntimeStorageConfig -> list SignedTransaction ->
    list SignedTransaction -> result PreparedTransactions Error;
  (** [self.create_state_witness] *)
  create_state_witness :
    AccountId -> BlockHeader -> ShardChunkHeader -> ShardChunk ->
    option PartialState -> result ChunkStateWitness Error;
  (** [self.chain.chain_store.save_latest_chunk_state_witness] *)
  save_latest_chunk_state_witness : ChunkStateWitness -> result unit Error;
  (** [EncodedChunkStateWitness::encode] *)
  encode : ChunkStateWitness -> result (EncodedChunkStateWitness * nat) Error;
  (** [EncodedChunkStateWitness::decode] *)
  decode : EncodedChunkStateWitness -> result (ChunkStateWitness * nat) Error;
  (** [pre_validate_chunk_state_witness(&witness, &self.chain, epoch_manager, runtime)] *)
  pre_validate_chunk_state_witness : ChunkStateWitness -> result PreValidationOutput Error;
  (** [validate_chunk_state_witness(witness, pre_validation_result, ...)] *)
  validate_chunk_state_witness : ChunkStateWitness -> PreValidationOutput -> result unit Error
}.

(** ** Effects *)

(** A closure handed to [rayon::spawn]: the values it captures by move. *)
Record Task := {
  task_witness : ChunkStateWitness;
  task_pre_validation_result : PreValidationOutput;
  task_shard_id : ShardId;
  task_chunk_hash : CryptoHash
}.

(** Observable events: calls to collaborators with their arguments, metric
    observations and log lines.  [EvAttempt] is a ghost marker recorded
    right before the loop calls [shadow_validate_chunk]. *)
Inductive Event :=
| EvGetBlock (h : CryptoHash)
| EvGetChunkFromHeader (h : ShardChunkHeader)
| EvAttempt (h : ShardChunkHeader)
| EvGetChunk (h : CryptoHash)
| EvValidatePreparedTransactions (cfg : RuntimeStorageConfig)
| EvCreateStateWitness (producer : AccountId)
| EvSaveLatestWitness (w : ChunkStateWitness)
| EvEncode (w : ChunkStateWitness)
| EvEncodeTime (shard : ShardId)
| EvWitnessSize (raw encoded : nat)
| EvDecode (e : EncodedChunkStateWitness)
| EvDecodeTime (shard : ShardId)
| EvPreValidate (w : ChunkStateWitness)
| EvFullValidate (w : ChunkStateWitness)
| EvLogDebug (msg : string)
| EvLogError (err : Error) (shard : ShardId) (h : CryptoHash).

(** Mutable state: [SHADOW_CHUNK_VALIDATION_FAILED_TOTAL], the rayon queue
    and the event log. *)
Record St := {
  failed_total : nat;
  pool : list Task;
  events : list Event
}.

(** A call ends normally, returns an [Err] through [?], or panics. *)
Inductive Outcome (A : Type) :=
| Done (a : A)
| Raise (e : Error)
| Panic.
Arguments Done {A} a.
Arguments Raise {A} e.
Arguments Panic {A}.

Definition M (A : Type) := St -> Outcome A * St.

Definition ret {A} (a : A) : M A := fun s => (Done a, s).

Definition bind {A B} (m : M A) (k : A -> M B) : M B :=
  fun s =>
    match m s with
    | (Done a, s') => k a s'
    | (Raise e, s') => (Raise e, s')
    | (Panic, s') => (Panic, s')
    end.

Notation "x <- m ;; k" := (bind m (fun x => k))
  (at level 61, m at next level, right associativity).
Notation "m ;; k" := (bind m (fun _ => k))
  (at level 61, right associativity).

(** The [?] operator. *)
Definition try_ {A} (r : result A Error) : M A :=
  fun s => match r with Ok a => (Done a, s) | Err e => (Raise e, s) end.

(** [Option::unwrap] and [Result::unwrap]. *)
Definition unwrap {A} (o : option A) : M A :=
  fun s => match o with Some a => (Done a, s) | None => (Panic, s) end.

Definition unwrap_result {A E} (r : result A E) : M A :=
  fun s => match r with Ok a => (Done a, s) | Err _ => (Panic, s) end.

(** [if let Err(err) = m { h(err) }]. *)
Definition catch (m : M unit) (h : Error -> M unit) : M unit :=
  fun s =>
    match m s with
    | (Raise e, s') => h e s'
    | r => r
    end.

Definition emit (ev : Event) : M unit :=
  fun s => (Done tt, {| failed_total := failed_total s; pool := pool s;
                        events := events s ++ [ev] |}).

(** [metrics::SHADOW_CHUNK_VALIDATION_FAILED_TOTAL.inc()]. *)
Definition inc_failed_total : M unit :=
  fun s => (Done tt, {| failed_total := S (failed_total s); pool := pool s;
                        events := events s |}).

(** [rayon::spawn]: the closure is queued, the caller does not wait. *)
Definition spawn (t : Task) : M unit :=
  fun s => (Done tt, {| failed_total := failed_total s; pool := pool s ++ [t];
                        events := events s |}).

(** A [HistogramTimer] started before [m]: when [m] returns early through
    [?], the timer is dropped and records its observation on the way out;
    on success the code calls [observe_duration] itself. *)
Definition observe_on_drop {A} (ev : Event) (m : M A) : M A :=
  fun s =>
    match m s with
    | (Raise e, s') => (Raise e, {| failed_total := failed_total s'; pool := pool s';
                                    events := events s' ++ [ev] |})
    | r => r
    end.

(** ** The shadow validation functions *)

Section ShadowValidate.

Variable self : Client.

(** [Client::shadow_validate_chunk]. *)
Definition shadow_validate_chunk (prev_block_header : BlockHeader)
    (prev_chunk_header : ShardChunkHeader) (chunk : ShardChunk) : M unit :=
  let shard_id := chunk_shard_id chunk in
  let chunk_header := chunk_cloned_header chunk in
  emit (EvGetChunk (chunk_hash prev_chunk_header)) ;;
  last_chunk <- try_ (get_chunk self (chunk_hash prev_chunk_header)) ;;
  let transactions_validation_storage_config :=
    {| state_root := prev_state_root chunk_header;
       use_flat_storage := true;
       source := Db;
       state_patch := default_state_patch |} in
  emit (EvValidatePreparedTransactions transactions_validation_storage_config) ;;
  validated_transactions <-
    (match validate_prepared_transactions self chunk_header
             transactions_validation_storage_config
             (chunk_transactions chunk) (chunk_transactions last_chunk) with
     | Ok v => ret v
     | Err _ => try_ (Err (Other "Could not produce storage proof for new transactions"))
     end) ;;
  (* Setting arbitrary chunk producer is OK for shadow validation *)
  producer <- unwrap_result (parse_account_id "alice.near") ;;
  emit (EvCreateStateWitness producer) ;;
  witness <- try_ (create_state_witness self producer prev_block_header
                     prev_chunk_header chunk (storage_proof validated_transactions)) ;;
  (if save_latest_witnesses self
   then emit (EvSaveLatestWitness witness) ;;
        try_ (save_latest_chunk_state_witness self witness)
   else ret tt) ;;
  encoded <-
    (emit (EvEncode witness) ;;
     encoded_and_size <- observe_on_drop (EvEncodeTime shard_id) (try_ (encode self witness)) ;;
     let '(encoded_witness, raw_witness_size) := encoded_and_size in
     emit (EvEncodeTime shard_id) ;;
     emit (EvWitnessSize raw_witness_size (size_bytes encoded_witness)) ;;
     emit (EvDecode encoded_witness) ;;
     _ <- observe_on_drop (EvDecodeTime shard_id) (try_ (decode self encoded_witness)) ;;
     emit (EvDecodeTime shard_id) ;;
     ret (encoded_witness, raw_witness_size)) ;;
  emit (EvPreValidate witness) ;;
  pre_validation_result <- try_ (pre_validate_chunk_state_witness self witness) ;;
  emit (EvLogDebug "completed shadow chunk pre-validation") ;;
  spawn {| task_witness := witness;
           task_pre_validation_result := pre_validation_result;
           task_shard_id := shard_id;
           task_chunk_hash := chunk_chunk_hash chunk |} ;;
  ret tt.

(** The body of the closure given to [rayon::spawn], run later by a pool
    thread. *)
Definition run_full_validation (t : Task) : M unit :=
  emit (EvFullValidate (task_witness t)) ;;
  match validate_chunk_state_witness self (task_witness t) (task_pre_validation_result t) with
  | Ok tt => emit (EvLogDebug "completed shadow chunk validation")
  | Err err =>
      inc_failed_total ;;
      emit (EvLogError err (task_shard_id t) (task_chunk_hash t))
  end.

(** The body of the [for] loop over the new chunks of the block. *)
Fixpoint shadow_validate_new_chunks (prev_block : Block) (block_hash : CryptoHash)
    (chunks : list ShardChunkHeader) : M unit :=
  match chunks with
  | [] => ret tt
  | header :: rest =>
      emit (EvGetChunkFromHeader header) ;;
      chunk <- try_ (get_chunk_clone_from_header self header) ;;
      prev_chunk_header <- unwrap (nth_error (block_chunks prev_block) (chunk_shard_id chunk)) ;;
      emit (EvAttempt header) ;;
      catch (shadow_validate_chunk (block_header prev_block) prev_chunk_header chunk)
            (fun err =>
               inc_failed_total ;;
               emit (EvLogError err (chunk_shard_id chunk) block_hash)) ;;
      shadow_validate_new_chunks prev_block block_hash rest
  end.

(** The chunk headers the loop visits: [block.chunks().iter().filter(..)]. *)
Definition new_chunks (block : Block) : list ShardChunkHeader :=
  filter (fun chunk => is_new_chunk chunk (height (block_header block))) (block_chunks block).

(** [Client::shadow_validate_block_chunks]. *)
Definition shadow_validate_block_chunks (block : Block) : M unit :=
  if negb (feature_shadow_chunk_validation self) then ret tt
  else
    let block_hash := block_hash block in
    emit (EvLogDebug "shadow validation for block chunks") ;;
    emit (EvGetBlock (prev_hash (block_header block))) ;;
    prev_block <- try_ (get_block self (prev_hash (block_header block))) ;;
    shadow_validate_new_chunks prev_block block_hash (new_chunks block) ;;
    ret tt.

End ShadowValidate.

(** ** A concrete node, for tests and witnesses

    Block 50 at height 5 has four shards; the chunks of shards 0 and 2 are
    new, those of shards 1 and 3 are carried over from height 4.  Its
    predecessor is block 40. *)
Module Sample.

Definition hdr (shard included : nat) : ShardChunkHeader :=
  {| chunk_hash := 100 + 10 * included + shard; shard_id := shard;
     height_created := included; height_included := included;
     prev_state_root := 700 + shard |}.

Definition block40 : Block :=
  {| block_header := {| header_hash := 40; prev_hash := 30; height := 4 |};
     block_chunks := [hdr 0 4; hdr 1 4; hdr 2 4; hdr 3 4] |}.

Definition block50 : Block :=
  {| block_header := {| header_hash := 50; prev_hash := 40; height := 5 |};
     block_chunks := [hdr 0 5; hdr 1 4; hdr 2 5; hdr 3 4] |}.

(** Block 60 at height 6 follows block 55, which the store does not have. *)
Definition block60 : Block :=
  {| block_header := {| header_hash := 60; prev_hash := 55; height := 6 |};
     block_chunks := [hdr 0 6] |}.

Definition body (h : ShardChunkHeader) : ShardChunk :=
  {| chunk_header := h; chunk_txs := [chunk_hash h] |}.

Definition chunk_by_hash (h : CryptoHash) : result ShardChunk Error :=
  if Nat.ltb h 100 then Err (ChunkMissing h)
  else Ok (body (hdr (h mod 10) ((h - 100) / 10))).

(** A node that knows blocks 40 and 50 and all their chunks, whose runtime
    and codec succeed, and whose pre-validation rejects nothing. *)
Definition node (feature save : bool) : Client :=
  {| feature_shadow_chunk_validation := feature;
     save_latest_witnesses := save;
     get_block := fun h =>
       if Nat.eqb h 40 then Ok block40
       else if Nat.eqb h 50 then Ok block50
       else Err (DBNotFoundErr "block");
     get_chunk_clone_from_header := fun h => chunk_by_hash (chunk_hash h);
     get_chunk := chunk_by_hash;
     validate_prepared_transactions := fun _ _ txs _ =>
       Ok {| prepared_transactions := txs; storage_proof := Some txs |};
     create_state_witness := fun producer pbh pch c proof =>
       Ok {| chunk_producer := producer; witness_prev_block_header := pbh;
             main_state_transition_prev_chunk_header := pch;
             witness_chunk := c; new_transactions_validation_state := proof |};
     save_latest_chunk_state_witness := fun _ => Err (IOErr "disk full");
     encode := fun w => Ok ([chunk_chunk_hash (witness_chunk w)], 7);
     decode := fun e => Err (InvalidChunkStateWitness "corrupt");
     pre_validate_chunk_state_witness := fun _ => Ok 1;
     validate_chunk_state_witness := fun _ _ => Ok tt |}.

(** The same node with a working decoder. *)
Definition good_node (feature save : bool) : Client :=
  {| feature_shadow_chunk_validation := feature;
     save_latest_witnesses := save;
     get_block := get_block (node feature save);
     get_chunk_clone_from_header := get_chunk_clone_from_header (node feature save);
     get_chunk := get_chunk (node feature save);
     validate_prepared_transactions := validate_prepared_transactions (node feature save);
     create_state_witness := create_state_witness (node feature save);
     save_latest_chunk_state_witness := save_latest_chunk_state_witness (node feature save);
     encode := encode (node feature save);
     decode := fun e => Ok ({| chunk_producer := "bob.near"%string;
                               witness_prev_block_header := block_header block40;
                               main_state_transition_prev_chunk_header := hdr 0 4;
                               witness_chunk := body (hdr 0 4);
                               new_transactions_validation_state := None |}, 3);
     pre_validate_chunk_state_witness := pre_validate_chunk_state_witness (node feature save);
     validate_chunk_state_witness := validate_chunk_state_witness (node feature save) |}.

(** Block 51, at height 5 after block 40, is the first block of a layout
    with five shards, one more than block 40. *)
Definition block51 : Block :=
  {| block_header := {| header_hash := 51; prev_hash := 40; height := 5 |};
     block_chunks := [hdr 0 5; hdr 1 4; hdr 2 5; hdr 3 4; hdr 4 5] |}.

(** [good_node] whose store lost the body of the shard 0 chunk of block 50. *)
Definition lossy_node : Client :=
  {| feature_shadow_chunk_validation := true;
     save_latest_witnesses := false;
     get_block := get_block (good_node true false);
     get_chunk_clone_from_header := fun h =>
       if Nat.eqb (chunk_hash h) (chunk_hash (hdr 0 5)) then Err (ChunkMissing (chunk_hash h))
       else chunk_by_hash (chunk_hash h);
     get_chunk := get_chunk (good_node true false);
     validate_prepared_transactions := validate_prepared_transactions (good_node true false);
     create_state_witness := create_state_witness (good_node true false);
     save_latest_chunk_state_witness := save_latest_chunk_state_witness (good_node true false);
     encode := encode (good_node true false);
     decode := decode (good_node true false);
     pre_validate_chunk_state_witness := pre_validate_chunk_state_witness (good_node true false);
     validate_chunk_state_witness := validate_chunk_state_witness (good_node true false) |}.

(** [node] (whose decoder rejects every witness) whose store lost the body
    of the shard 2 chunk of block 50. *)
Definition flaky_node : Client :=
  {| feature_shadow_chunk_validation := true;
     save_latest_witnesses := false;
     get_block := get_block (node true false);
     get_chunk_clone_from_header := fun h =>
       if Nat.eqb (chunk_hash h) (chunk_hash (hdr 2 5)) then Err (ChunkMissing (chunk_hash h))
       else chunk_by_hash (chunk_hash h);
     get_chunk := get_chunk (node true false);
     validate_prepared_transactions := validate_prepared_transactions (node true false);
     create_state_witness := create_state_witness (node true false);
     save_latest_chunk_state_witness := save_latest_chunk_state_witness (node true false);
     encode := encode (node true false);
     decode := decode (node true false);
     pre_validate_chunk_state_witness := pre_validate_chunk_state_witness (node true false);
     validate_chunk_state_witness := validate_chunk_state_witness (node true false) |}.

Definition s0 : St := {| failed_total := 0; pool := []; events := [] |}.

End Sample.

(** Event filters. *)
Fixpoint attempted (evs : list Event) : list ShardChunkHeader :=
  match evs with
  | [] => []
  | EvAttempt h :: rest => h :: attempted rest
  | _ :: rest => attempted rest
  end.

Fixpoint fetched (evs : list Event) : list ShardChunkHeader :=
  match evs with
  | [] => []
  | EvGetChunkFromHeader h :: rest => h :: fetched rest
  | _ :: rest => fetched rest
  end.

Fixpoint pre_validated (evs : list Event) : list ChunkStateWitness :=
  match evs with
  | [] => []
  | EvPreValidate w :: rest => w :: pre_validated rest
  | _ :: rest => pre_validated rest
  end.

Fixpoint storage_configs (evs : list Event) : list RuntimeStorageConfig :=
  match evs with
  | [] => []
  | EvValidatePreparedTransactions c :: rest => c :: storage_configs rest
  | _ :: rest => storage_configs rest
  end.

Module Tests.
Import Sample.

Example good_run :
  let '(r, s) := shadow_validate_block_chunks (good_node true false) block50 s0 in
  r = Done tt /\ attempted (events s) = [hdr 0 5; hdr 2 5] /\
  List.length (pool s) = 2 /\ failed_total s = 0.
Proof. vm_compute. repeat split; reflexivity. Qed.

Example decode_fails_run :
  let '(r, s) := shadow_validate_block_chunks (node true false) block50 s0 in
  r = Done tt /\ attempted (events s) = [hdr 0 5; hdr 2 5] /\
  pool s = [] /\ failed_total s = 2.
Proof. vm_compute. repeat split; reflexivity. Qed.

Example save_fails_run :
  let '(r, s) := shadow_validate_block_chunks (good_node true true) block50 s0 in
  r = Done tt /\ pool s = [] /\ failed_total s = 2 /\ pre_validated (events s) = [].
Proof. vm_compute. repeat split; reflexivity. Qed.

(** The decoder of [good_node] returns a witness produced by [bob.near];
    the queued tasks still carry the witnesses produced by [alice.near]. *)
Example decoded_copy_discarded :
  map (fun t => chunk_producer (task_witness t))
      (pool (snd (shadow_validate_block_chunks (good_node true false) block50 s0)))
  = ["alice.near"%string; "alice.near"%string].
Proof. vm_compute. reflexivity. Qed.

Example alice_parses : parse_account_id "alice.near" = Ok "alice.near"%string.
Proof. reflexivity. Qed.

Example bad_ids :
  parse_account_id "a" = Err TooShort /\
  parse_account_id "alice..near" = Err (RedundantSeparator 6) /\
  parse_account_id "Alice" = Err (InvalidChar 0 "A") /\
  parse_account_id "alice." = Err (RedundantSeparator 5).
Proof. repeat split; reflexivity. Qed.

End Tests.

(** ** Structure of one chunk attempt *)

(** Events [shadow_validate_chunk] can emit: none of the per-block ones. *)
Definition chunk_event (ev : Event) : Prop :=
  match ev with
  | EvGetBlock _ | EvGetChunkFromHeader _ | EvAttempt _ => False
  | _ => True
  end.

Lemma parse_alice_near : parse_account_id "alice.near" = Ok "alice.near"%string.
Proof. reflexivity. Qed.

Ltac split_calls :=
  repeat (cbn -[app] in *; match goal with
  | |- context [parse_account_id "alice.near"] => rewrite parse_alice_near
  | |- context [get_chunk ?c ?h] => destruct (get_chunk c h) eqn:?
  | |- context [validate_prepared_transactions ?c ?a ?b ?d ?e] =>
      destruct (validate_prepared_transactions c a b d e) eqn:?
  | |- context [create_state_witness ?c ?a ?b ?d ?e ?f] =>
      destruct (create_state_witness c a b d e f) eqn:?
  | |- context [save_latest_witnesses ?c] => destruct (save_latest_witnesses c) eqn:?
  | |- context [save_latest_chunk_state_witness ?c ?w] =>
      destruct (save_latest_chunk_state_witness c w) eqn:?
  | |- context [encode ?c ?w] => destruct (encode c w) eqn:?
  | |- context [decode ?c ?w] => destruct (decode c w) eqn:?
  | |- context [pre_validate_chunk_state_witness ?c ?w] =>
      destruct (pre_validate_chunk_state_witness c w) eqn:?
  | |- context [match ?x with _ => _ end] => is_var x; destruct x
  end).

(** The configuration [shadow_validate_chunk] builds for a chunk. *)
Definition flat_db_config (c : ShardChunk) : RuntimeStorageConfig :=
  {| state_root := prev_state_root (chunk_header c); use_flat_storage := true;
     source := Db; state_patch := [] |}.

(** [w] is what [create_state_witness] returned for this attempt. *)
Definition created (self : Client) (pbh : BlockHeader) (pch : ShardChunkHeader)
    (c : ShardChunk) (w : ChunkStateWitness) : Prop :=
  exists proof, create_state_witness self "alice.near"%string pbh pch c proof = Ok w.

Ltac finish_foralls :=
  repeat (apply Forall_cons || apply Forall_nil); cbn;
  try exact I; try reflexivity;
  try (unfold created; eexists; eassumption);
  try (split; [assumption | unfold created; eexists; eassumption]).

Lemma shadow_validate_chunk_spec self pbh pch c s :
  let '(r, s') := shadow_validate_chunk self pbh pch c s in
  r <> Panic /\ failed_total s' = failed_total s /\
  exists evs ts, events s' = events s ++ evs /\ pool s' = pool s ++ ts /\
    Forall chunk_event evs /\
    Forall (fun t => pre_validate_chunk_state_witness self (task_witness t)
                     = Ok (task_pre_validation_result t) /\
                     created self pbh pch c (task_witness t)) ts /\
    Forall (created self pbh pch c) (pre_validated evs) /\
    Forall (fun cfg => cfg = flat_db_config c) (storage_configs evs).
Proof.
  unfold shadow_validate_chunk, bind, emit, observe_on_drop, try_, unwrap_result, ret, spawn.
  split_calls;
    (split; [discriminate | split; [reflexivity |]]);
    cbn -[app]; repeat rewrite <- app_assoc; cbn [app];
    do 2 eexists;
    (split; [reflexivity |]);
    (split; [first [reflexivity | symmetry; apply app_nil_r] |]);
    repeat split; finish_foralls.
Qed.

(** ** Structure of the loop over the new chunks *)

Definition is_prefix {A} (l m : list A) : Prop := exists rest, m = l ++ rest.

Lemma is_prefix_nil {A} (m : list A) : is_prefix [] m.
Proof. exists m. reflexivity. Qed.

Lemma is_prefix_cons {A} (x : A) l m : is_prefix l m -> is_prefix (x :: l) (x :: m).
Proof. intros [rest ->]. exists rest. reflexivity. Qed.

Lemma chunk_events_silent evs :
  Forall chunk_event evs -> fetched evs = [] /\ attempted evs = [].
Proof.
  induction 1 as [| ev evs Hev _ [IHf IHa]]; [split; reflexivity |].
  destruct ev; cbn in *; try contradiction; split; assumption.
Qed.

Lemma fetched_app l m : fetched (l ++ m) = fetched l ++ fetched m.
Proof. induction l as [| [] l IH]; cbn; rewrite ?IH; reflexivity. Qed.

Lemma attempted_app l m : attempted (l ++ m) = attempted l ++ attempted m.
Proof. induction l as [| [] l IH]; cbn; rewrite ?IH; reflexivity. Qed.

(** The tasks a run queues were all pre-validated successfully. *)
Definition prevalidated_task (self : Client) (t : Task) : Prop :=
  pre_validate_chunk_state_witness self (task_witness t) = Ok (task_pre_validation_result t).

Lemma shadow_validate_new_chunks_spec self prev bh chunks s :
  let '(r, s') := shadow_validate_new_chunks self prev bh chunks s in
  exists evs ts,
    events s' = events s ++ evs /\ pool s' = pool s ++ ts /\
    is_prefix (fetched evs) chunks /\ is_prefix (attempted evs) chunks /\
    (r = Done tt -> fetched evs = chunks /\ attempted evs = chunks) /\
    (forall e, r = Raise e ->
       exists h, In h chunks /\ get_chunk_clone_from_header self h = Err e) /\
    (r = Panic ->
       exists h c, In h chunks /\ get_chunk_clone_from_header self h = Ok c /\
         nth_error (block_chunks prev) (chunk_shard_id c) = None) /\
    Forall (prevalidated_task self) ts.
Proof.
  revert s; induction chunks as [| h rest IH]; intro s.
  - cbn. exists [], []. rewrite !app_nil_r.
    repeat split; try apply is_prefix_nil; try discriminate; constructor.
  - cbn -[app shadow_validate_chunk].
    destruct (get_chunk_clone_from_header self h) as [c | e] eqn:Ec; cbn -[app shadow_validate_chunk].
    + destruct (nth_error (block_chunks prev) (chunk_shard_id c)) as [pch |] eqn:En;
        cbn -[app shadow_validate_chunk].
      * cbv [bind catch]; cbn -[app shadow_validate_chunk shadow_validate_new_chunks].
        match goal with
        | |- context [shadow_validate_chunk ?a ?b ?c ?d ?e] =>
            pose proof (shadow_validate_chunk_spec a b c d e) as Hc;
            destruct (shadow_validate_chunk a b c d e) as [r1 s1]
        end.
        destruct Hc as (Hnp & _ & evs1 & ts1 & Hev1 & Hts1 & Hce1 & Hts1ok & _ & _).
        destruct (chunk_events_silent _ Hce1) as [Hf1 Ha1].
        cbn in Hev1, Hts1.
        destruct r1 as [[] | e1 |]; [| | contradiction].
        -- specialize (IH s1).
           destruct (shadow_validate_new_chunks self prev bh rest s1) as [r2 s2].
           destruct IH as (evs2 & ts2 & Hev2 & Hts2 & Pf & Pa & Hdone & Hraise & Hpanic & Hok).
           exists (EvGetChunkFromHeader h :: EvAttempt h :: evs1 ++ evs2), (ts1 ++ ts2).
           rewrite Hev2, Hev1, Hts2, Hts1, <- !app_assoc.
           cbn.
           rewrite !fetched_app, !attempted_app, Hf1, Ha1. cbn.
           refine (conj eq_refl (conj eq_refl (conj _ (conj _ (conj _ (conj _ (conj _ _))))))).
           ++ apply is_prefix_cons; assumption.
           ++ apply is_prefix_cons; assumption.
           ++ intro Hd; destruct (Hdone Hd) as [-> ->]; split; reflexivity.
           ++ intros e He; destruct (Hraise e He) as (h' & Hin & Hh'); exists h'; auto.
           ++ intros Hp; destruct (Hpanic Hp) as (h' & c' & Hin & Hh' & Hn'); exists h', c'; auto.
           ++ apply Forall_app; split; [| exact Hok].
              eapply Forall_impl; [| exact Hts1ok]. intros t [Ht _]; exact Ht.
        -- cbn -[app].
           match goal with
           | |- context [shadow_validate_new_chunks self prev bh rest ?s2] =>
               specialize (IH s2); destruct (shadow_validate_new_chunks self prev bh rest s2) as [r2 s3]
           end.
           destruct IH as (evs2 & ts2 & Hev2 & Hts2 & Pf & Pa & Hdone & Hraise & Hpanic & Hok).
           cbn in Hev2, Hts2.
           exists (EvGetChunkFromHeader h :: EvAttempt h :: evs1 ++ EvLogError e1 (chunk_shard_id c) bh :: evs2),
                  (ts1 ++ ts2).
           rewrite Hev2, Hev1, Hts2, Hts1, <- !app_assoc.
           cbn.
           rewrite !fetched_app, !attempted_app, Hf1, Ha1. cbn.
           refine (conj eq_refl (conj eq_refl (conj _ (conj _ (conj _ (conj _ (conj _ _))))))).
           ++ apply is_prefix_cons; assumption.
           ++ apply is_prefix_cons; assumption.
           ++ intro Hd; destruct (Hdone Hd) as [-> ->]; split; reflexivity.
           ++ intros e He; destruct (Hraise e He) as (h' & Hin & Hh'); exists h'; auto.
           ++ intros Hp; destruct (Hpanic Hp) as (h' & c' & Hin & Hh' & Hn'); exists h', c'; auto.
           ++ apply Forall_app; split; [| exact Hok].
              eapply Forall_impl; [| exact Hts1ok]. intros t [Ht _]; exact Ht.
      * exists [EvGetChunkFromHeader h], []. rewrite app_nil_r.
        repeat split; cbn; try discriminate.
        -- apply is_prefix_cons, is_prefix_nil.
        -- apply is_prefix_nil.
        -- intros _. exists h, c. auto.
        -- constructor.
    + exists [EvGetChunkFromHeader h], []. rewrite app_nil_r.
      repeat split; cbn; try discriminate.
      -- apply is_prefix_cons, is_prefix_nil.
      -- apply is_prefix_nil.
      -- intros e' He'. injection He' as <-. exists h. auto.
      -- constructor.
Qed.

(** The state in which the loop calls [shadow_validate_chunk] for the
    header [h]: the body fetch and the attempt marker are recorded. *)
Definition attempt_state (h : ShardChunkHeader) (s : St) : St :=
  {| failed_total := failed_total s; pool := pool s;
     events := events s ++ [EvGetChunkFromHeader h; EvAttempt h] |}.

(** One turn of the loop whose chunk body cannot be fetched: [?] returns
    the error at once. *)
Lemma new_chunks_step_fetch_err self prev bh h rest s e :
  get_chunk_clone_from_header self h = Err e ->
  shadow_validate_new_chunks self prev bh (h :: rest) s =
  (Raise e, {| failed_total := failed_total s; pool := pool s;
               events := events s ++ [EvGetChunkFromHeader h] |}).
Proof. intros Hc. cbn -[app]. rewrite Hc. reflexivity. Qed.

(** One turn of the loop whose chunk has no previous chunk header at its
    shard id: the [unwrap] panics. *)
Lemma new_chunks_step_lookup_none self prev bh h rest s c :
  get_chunk_clone_from_header self h = Ok c ->
  nth_error (block_chunks prev) (chunk_shard_id c) = None ->
  shadow_validate_new_chunks self prev bh (h :: rest) s =
  (Panic, {| failed_total := failed_total s; pool := pool s;
             events := events s ++ [EvGetChunkFromHeader h] |}).
Proof. intros Hc Hn. cbn -[app]. rewrite Hc. cbn -[app]. rewrite Hn. reflexivity. Qed.

(** One turn of the loop that reaches [shadow_validate_chunk]: on [Ok] the
    loop goes on, on [Err] it counts and logs the error and goes on. *)
Lemma new_chunks_step_attempt self prev bh h rest s c pch :
  get_chunk_clone_from_header self h = Ok c ->
  nth_error (block_chunks prev) (chunk_shard_id c) = Some pch ->
  shadow_validate_new_chunks self prev bh (h :: rest) s =
  match shadow_validate_chunk self (block_header prev) pch c (attempt_state h s) with
  | (Done _, s1) => shadow_validate_new_chunks self prev bh rest s1
  | (Raise e, s1) =>
      shadow_validate_new_chunks self prev bh rest
        {| failed_total := S (failed_total s1); pool := pool s1;
           events := events s1 ++ [EvLogError e (chunk_shard_id c) bh] |}
  | (Panic, s1) => (Panic, s1)
  end.
Proof.
  intros Hc Hn. cbn -[app shadow_validate_chunk]. rewrite Hc.
  cbn -[app shadow_validate_chunk]. rewrite Hn.
  cbv [bind catch emit unwrap]. cbn -[app shadow_validate_chunk shadow_validate_new_chunks].
  rewrite <- app_assoc. cbn [app]. unfold attempt_state.
  destruct (shadow_validate_chunk self (block_header prev) pch c _) as [[[] | e |] s1];
    reflexivity.
Qed.

(** Running the loop over chunks whose bodies are all fetched and whose
    shard ids are all in range attempts each of them, in order, and leaves
    the loop to go on with what follows. *)
Lemma new_chunks_prefix self prev bh pre l s :
  (forall h, In h pre -> exists c, get_chunk_clone_from_header self h = Ok c /\
                                   nth_error (block_chunks prev) (chunk_shard_id c) <> None) ->
  exists s1 evs, events s1 = events s ++ evs /\ fetched evs = pre /\ attempted evs = pre /\
    shadow_validate_new_chunks self prev bh (pre ++ l) s =
    shadow_validate_new_chunks self prev bh l s1.
Proof.
  revert s; induction pre as [| h pre IH]; intros s Hall.
  - exists s, []. rewrite app_nil_r. repeat split; reflexivity.
  - destruct (Hall h (or_introl eq_refl)) as (c & Hc & Hn).
    destruct (nth_error (block_chunks prev) (chunk_shard_id c)) as [pch |] eqn:En;
      [| contradiction].
    assert (Hall' : forall h', In h' pre -> exists c', get_chunk_clone_from_header self h' = Ok c' /\
                      nth_error (block_chunks prev) (chunk_shard_id c') <> None)
      by (intros h' Hin; apply Hall; right; exact Hin).
    cbn [app]. rewrite (new_chunks_step_attempt self prev bh h (pre ++ l) s c pch Hc En).
    pose proof (shadow_validate_chunk_spec self (block_header prev) pch c (attempt_state h s)) as Hs.
    destruct (shadow_validate_chunk self (block_header prev) pch c (attempt_state h s))
      as [r1 s1] eqn:E1.
    destruct Hs as (Hnp & _ & evs1 & ts1 & Hev1 & _ & Hce1 & _).
    destruct (chunk_events_silent _ Hce1) as [Hf1 Ha1].
    cbn in Hev1.
    destruct r1 as [[] | e1 |]; [| | contradiction].
    + destruct (IH s1 Hall') as (s2 & evs2 & Hev2 & Hf2 & Ha2 & Hrun).
      exists s2, (EvGetChunkFromHeader h :: EvAttempt h :: evs1 ++ evs2).
      rewrite Hev2, Hev1, <- !app_assoc. cbn.
      rewrite fetched_app, attempted_app, Hf1, Ha1, Hf2, Ha2.
      repeat split; exact Hrun.
    + match goal with
      | |- exists _ _, _ /\ _ /\ _ /\ shadow_validate_new_chunks _ _ _ _ ?s2 = _ =>
          destruct (IH s2 Hall') as (s3 & evs2 & Hev2 & Hf2 & Ha2 & Hrun)
      end.
      exists s3, (EvGetChunkFromHeader h :: EvAttempt h :: evs1 ++
                  EvLogError e1 (chunk_shard_id c) bh :: evs2).
      refine (conj _ (conj _ (conj _ Hrun))).
      * rewrite Hev2. cbn -[app]. rewrite Hev1, <- !app_assoc. reflexivity.
      * cbn. rewrite fetched_app. cbn [fetched]. rewrite Hf1, Hf2. reflexivity.
      * cbn. rewrite attempted_app. cbn [attempted]. rewrite Ha1, Ha2. reflexivity.
Qed.

(** With the feature on and the previous block fetched, the per-block call
    is the loop over the new chunks, run after the debug line and the block
    fetch are recorded. *)
Lemma block_chunks_run self block prev s :
  feature_shadow_chunk_validation self = true ->
  get_block self (prev_hash (block_header block)) = Ok prev ->
  let run := shadow_validate_new_chunks self prev (block_hash block) (new_chunks block)
               {| failed_total := failed_total s; pool := pool s;
                  events := events s ++ [EvLogDebug "shadow validation for block chunks";
                                         EvGetBlock (prev_hash (block_header block))] |} in
  fst (shadow_validate_block_chunks self block s) =
    match fst run with Done _ => Done tt | Raise e => Raise e | Panic => Panic end /\
  snd (shadow_validate_block_chunks self block s) = snd run.
Proof.
  intros Hf Hb. unfold shadow_validate_block_chunks.
  rewrite Hf. cbv [bind emit try_ ret negb]. rewrite Hb.
  cbn -[app shadow_validate_new_chunks new_chunks]. rewrite <- app_assoc. cbn [app].
  destruct (shadow_validate_new_chunks _ _ _ _ _) as [[[] | e |] s2]; split; reflexivity.
Qed.

(** ** Claims *)

(** C1 (as stated: refuted).  On a node whose store lacks the body of the
    new shard 0 chunk of block 50, the per-block call returns that
    [ChunkMissing] error, and the new shard 2 chunk is never attempted. *)
Lemma chunk_body_fetch_error_escapes :
  let '(r, s) := shadow_validate_block_chunks Sample.lossy_node Sample.block50 Sample.s0 in
  r = Raise (ChunkMissing 150) /\ attempted (events s) = [] /\
  In (Sample.hdr 2 5) (new_chunks Sample.block50).
Proof. vm_compute. repeat split; auto. Qed.

(** C1 (amended).  With the feature on and the previous block fetched:
    (1) a failure inside [shadow_validate_chunk] (the predecessor chunk
    fetch included) is caught for that chunk only: the loop increments the
    failure counter, logs the error with the chunk's shard id and the
    block's hash, and goes on with the next new chunk; (2) a failure to
    fetch a new chunk's body is not caught: the per-block call returns that
    error, and that chunk and every later new chunk stay unattempted;
    (3) so the call's error, when it returns one, is one that
    [get_chunk_clone_from_header] gave for a new chunk; and (4) when every
    new chunk's body is fetched and its shard id is in range of the previous
    block's chunk list, the call returns [Ok] after attempting every new
    chunk, whatever the attempts themselves did. *)
Theorem per_chunk_errors_isolated self block prev s :
  feature_shadow_chunk_validation self = true ->
  get_block self (prev_hash (block_header block)) = Ok prev ->
  (forall h rest c pch s0 e1 s1,
     get_chunk_clone_from_header self h = Ok c ->
     nth_error (block_chunks prev) (chunk_shard_id c) = Some pch ->
     shadow_validate_chunk self (block_header prev) pch c (attempt_state h s0) = (Raise e1, s1) ->
     shadow_validate_new_chunks self prev (block_hash block) (h :: rest) s0 =
     shadow_validate_new_chunks self prev (block_hash block) rest
       {| failed_total := S (failed_total s1); pool := pool s1;
          events := events s1 ++ [EvLogError e1 (chunk_shard_id c) (block_hash block)] |}) /\
  (forall pre h post e,
     new_chunks block = pre ++ h :: post ->
     (forall h', In h' pre ->
        exists c, get_chunk_clone_from_header self h' = Ok c /\
                  nth_error (block_chunks prev) (chunk_shard_id c) <> None) ->
     get_chunk_clone_from_header self h = Err e ->
     fst (shadow_validate_block_chunks self block s) = Raise e /\
     exists evs, events (snd (shadow_validate_block_chunks self block s)) = events s ++ evs /\
       fetched evs = pre ++ [h] /\ attempted evs = pre) /\
  (forall e, fst (shadow_validate_block_chunks self block s) = Raise e ->
     exists h, In h (new_chunks block) /\ get_chunk_clone_from_header self h = Err e) /\
  ((forall h, In h (new_chunks block) ->
      exists c, get_chunk_clone_from_header self h = Ok c /\
                nth_error (block_chunks prev) (chunk_shard_id c) <> None) ->
   fst (shadow_validate_block_chunks self block s) = Done tt /\
   exists evs, events (snd (shadow_validate_block_chunks self block s)) = events s ++ evs /\
     attempted evs = new_chunks block).
Proof.
  intros Hf Hb.
  destruct (block_chunks_run self block prev s Hf Hb) as [Hfst Hsnd].
  rewrite Hfst, Hsnd. clear Hfst Hsnd.
  split; [| split].
  - intros h rest c pch s0 e1 s1 Hc Hn Hrun.
    rewrite (new_chunks_step_attempt self prev (block_hash block) h rest s0 c pch Hc Hn), Hrun.
    reflexivity.
  - intros pre h post e Hnew Hpre He. rewrite Hnew.
    match goal with
    | |- context [shadow_validate_new_chunks self prev _ _ ?st] =>
        destruct (new_chunks_prefix self prev (block_hash block) pre (h :: post) st Hpre)
          as (s1 & evs & Hev & Hf1 & Ha1 & Hrun)
    end.
    rewrite Hrun, (new_chunks_step_fetch_err self prev (block_hash block) h post s1 e He).
    cbn -[app]. split; [reflexivity |].
    exists ([EvLogDebug "shadow validation for block chunks";
             EvGetBlock (prev_hash (block_header block))] ++ evs ++ [EvGetChunkFromHeader h]).
    rewrite Hev. cbn -[app]. rewrite <- !app_assoc.
    split; [reflexivity |].
    rewrite fetched_app, attempted_app, fetched_app, attempted_app, Hf1, Ha1. cbn.
    rewrite app_nil_r. split; reflexivity.
  - match goal with
    | |- context [shadow_validate_new_chunks self prev ?bh ?l ?s1] =>
        pose proof (shadow_validate_new_chunks_spec self prev bh l s1) as Hl;
        destruct (shadow_validate_new_chunks self prev bh l s1) as [r s2]
    end.
    destruct Hl as (evs & ts & Hev & _ & _ & Pa & Hdone & Hraise & Hpanic & _).
    destruct r as [[] | e |]; cbn.
    + split; [intros e He; discriminate |].
      intros _. split; [reflexivity |].
      exists (EvLogDebug "shadow validation for block chunks"
              :: EvGetBlock (prev_hash (block_header block)) :: evs).
      rewrite Hev. cbn. rewrite <- !app_assoc. cbn. split; [reflexivity |].
      apply Hdone; reflexivity.
    + split; [intros e' He'; injection He' as <-; apply Hraise; reflexivity |].
      intros Hall. exfalso.
      destruct (Hraise e eq_refl) as (h & Hin & Hh).
      destruct (Hall h Hin) as (c & Hc & _). congruence.
    + split; [intros e He; discriminate |].
      intros Hall. exfalso.
      destruct (Hpanic eq_refl) as (h & c & Hin & Hc & Hn).
      destruct (Hall h Hin) as (c' & Hc' & Hn'). congruence.
Qed.

(** On [flaky_node], the shard 0 chunk of block 50 fails inside its
    attempt (the decoder rejects the witness), is counted and logged, and
    the loop moves on to the shard 2 chunk, whose body is missing: the call
    returns [ChunkMissing 152] after attempting the shard 0 chunk only. *)
Lemma per_chunk_errors_isolated_witness :
  feature_shadow_chunk_validation Sample.flaky_node = true /\
  get_block Sample.flaky_node 40 = Ok Sample.block40 /\
  shadow_validate_new_chunks Sample.flaky_node Sample.block40 50
    [Sample.hdr 0 5; Sample.hdr 2 5] Sample.s0 =
  shadow_validate_new_chunks Sample.flaky_node Sample.block40 50 [Sample.hdr 2 5]
    (let s1 := snd (shadow_validate_chunk Sample.flaky_node (block_header Sample.block40)
                      (Sample.hdr 0 4) (Sample.body (Sample.hdr 0 5))
                      (attempt_state (Sample.hdr 0 5) Sample.s0)) in
     {| failed_total := S (failed_total s1); pool := pool s1;
        events := events s1 ++ [EvLogError (InvalidChunkStateWitness "corrupt") 0 50] |}) /\
  fst (shadow_validate_block_chunks Sample.flaky_node Sample.block50 Sample.s0)
  = Raise (ChunkMissing 152) /\
  exists evs, events (snd (shadow_validate_block_chunks Sample.flaky_node Sample.block50 Sample.s0))
              = events Sample.s0 ++ evs /\
    fetched evs = [Sample.hdr 0 5; Sample.hdr 2 5] /\ attempted evs = [Sample.hdr 0 5].
Proof.
  pose proof (per_chunk_errors_isolated Sample.flaky_node Sample.block50 Sample.block40 Sample.s0
                eq_refl eq_refl) as (Hstep & Hfetch & _ & _).
  split; [reflexivity | split; [reflexivity | split]].
  - apply (Hstep (Sample.hdr 0 5) [Sample.hdr 2 5] (Sample.body (Sample.hdr 0 5)) (Sample.hdr 0 4)
             Sample.s0 (InvalidChunkStateWitness "corrupt")); [reflexivity | reflexivity |].
    vm_compute. reflexivity.
  - apply (Hfetch [Sample.hdr 0 5] (Sample.hdr 2 5) [] (ChunkMissing 152));
      [reflexivity | | reflexivity].
    intros h' Hin. destruct Hin as [<- | []].
    exists (Sample.body (Sample.hdr 0 5)). split; [reflexivity | discriminate].
Defined.

(** C2.  With the feature on, when the previous block cannot be fetched the
    call returns that error right after the lookup: nothing but the debug
    line and the [get_block] call is recorded, so no chunk is fetched or
    shadow-validated, no task is queued and the counter is unchanged. *)
Theorem prev_block_missing_aborts_block self block s e :
  feature_shadow_chunk_validation self = true ->
  get_block self (prev_hash (block_header block)) = Err e ->
  shadow_validate_block_chunks self block s =
  (Raise e, {| failed_total := failed_total s; pool := pool s;
               events := events s ++ [EvLogDebug "shadow validation for block chunks";
                                      EvGetBlock (prev_hash (block_header block))] |}).
Proof.
  intros Hf Hb. unfold shadow_validate_block_chunks.
  rewrite Hf. cbv [bind emit try_ ret negb]. rewrite Hb.
  cbn. rewrite <- app_assoc. reflexivity.
Qed.

Lemma prev_block_missing_aborts_block_witness :
  feature_shadow_chunk_validation (Sample.good_node true false) = true /\
  get_block (Sample.good_node true false) 55 = Err (DBNotFoundErr "block") /\
  shadow_validate_block_chunks (Sample.good_node true false) Sample.block60 Sample.s0 =
  (Raise (DBNotFoundErr "block"),
   {| failed_total := 0; pool := [];
      events := [EvLogDebug "shadow validation for block chunks"; EvGetBlock 55] |}).
Proof.
  split; [reflexivity | split; [reflexivity |]].
  exact (prev_block_missing_aborts_block (Sample.good_node true false) Sample.block60
           Sample.s0 (DBNotFoundErr "block") eq_refl eq_refl).
Defined.

(** C3.  One chunk attempt queues at most one full-validation task, and a
    queued task carries a witness that this attempt pre-validated, with the
    [Ok] result pre-validation returned for it. *)
Theorem full_validation_only_after_pre_validation self pbh pch c s :
  let '(r, s') := shadow_validate_chunk self pbh pch c s in
  exists evs ts, events s' = events s ++ evs /\ pool s' = pool s ++ ts /\
    List.length ts <= 1 /\
    Forall (fun t => In (task_witness t) (pre_validated evs) /\
                     pre_validate_chunk_state_witness self (task_witness t)
                     = Ok (task_pre_validation_result t)) ts.
Proof.
  unfold shadow_validate_chunk, bind, emit, observe_on_drop, try_, unwrap_result, ret, spawn.
  split_calls;
    cbn -[app]; repeat rewrite <- app_assoc; cbn [app];
    do 2 eexists;
    (split; [reflexivity |]);
    (split; [first [reflexivity | symmetry; apply app_nil_r] |]);
    (split; [cbn; auto |]);
    repeat (apply Forall_cons || apply Forall_nil); cbn; auto.
Qed.

(** C4 (as stated: refuted).  For the new shard 0 chunk of block 50, the
    same node completes the attempt and queues full validation when it does
    not save witnesses, but when it saves them and the save fails the
    attempt returns the save error and queues nothing. *)
Lemma failed_save_changes_outcome :
  let pbh := block_header Sample.block40 in
  let pch := Sample.hdr 0 4 in
  let c := Sample.body (Sample.hdr 0 5) in
  fst (shadow_validate_chunk (Sample.good_node true false) pbh pch c Sample.s0) = Done tt /\
  List.length (pool (snd (shadow_validate_chunk (Sample.good_node true false) pbh pch c Sample.s0))) = 1 /\
  fst (shadow_validate_chunk (Sample.good_node true true) pbh pch c Sample.s0) = Raise (IOErr "disk full") /\
  pool (snd (shadow_validate_chunk (Sample.good_node true true) pbh pch c Sample.s0)) = [].
Proof. vm_compute. repeat split; reflexivity. Qed.

(** C4 (amended).  When [save_latest_witnesses] is set and saving the
    witness [create_state_witness] just built fails, the chunk's attempt
    returns exactly that error right after the save: the witness is neither
    encoded nor pre-validated, no full validation is queued and the counter
    is not touched by the attempt.  The loop of
    [shadow_validate_block_chunks] then counts the error, logs it with the
    chunk's shard id and the block's hash, and goes on with the next new
    chunk, so the per-block result is the one of the remaining chunks. *)
Theorem failed_save_aborts_attempt self prev bh h rest c pch s0 last_chunk vt w e :
  save_latest_witnesses self = true ->
  get_chunk_clone_from_header self h = Ok c ->
  nth_error (block_chunks prev) (chunk_shard_id c) = Some pch ->
  get_chunk self (chunk_hash pch) = Ok last_chunk ->
  validate_prepared_transactions self (chunk_cloned_header c) (flat_db_config c)
    (chunk_transactions c) (chunk_transactions last_chunk) = Ok vt ->
  create_state_witness self "alice.near"%string (block_header prev) pch c
    (storage_proof vt) = Ok w ->
  save_latest_chunk_state_witness self w = Err e ->
  let s1 := {| failed_total := failed_total s0; pool := pool s0;
               events := events s0 ++ [EvGetChunkFromHeader h; EvAttempt h;
                                       EvGetChunk (chunk_hash pch);
                                       EvValidatePreparedTransactions (flat_db_config c);
                                       EvCreateStateWitness "alice.near"%string;
                                       EvSaveLatestWitness w] |} in
  shadow_validate_chunk self (block_header prev) pch c (attempt_state h s0) = (Raise e, s1) /\
  shadow_validate_new_chunks self prev bh (h :: rest) s0 =
  shadow_validate_new_chunks self prev bh rest
    {| failed_total := S (failed_total s0); pool := pool s0;
       events := events s1 ++ [EvLogError e (chunk_shard_id c) bh] |}.
Proof.
  intros Hs Hc Hn Hg Hv Hw Hsave s1.
  assert (Hrun : shadow_validate_chunk self (block_header prev) pch c (attempt_state h s0)
                 = (Raise e, s1)).
  { unfold shadow_validate_chunk, attempt_state, bind, emit, try_, unwrap_result, ret.
    cbn -[app flat_db_config validate_prepared_transactions create_state_witness].
    rewrite Hg. cbn -[app flat_db_config validate_prepared_transactions create_state_witness].
    change {| state_root := prev_state_root (chunk_cloned_header c); use_flat_storage := true;
              source := Db; state_patch := default_state_patch |} with (flat_db_config c).
    rewrite Hv. cbn -[app flat_db_config create_state_witness].
    rewrite parse_alice_near. cbn -[app flat_db_config create_state_witness].
    rewrite Hw. cbn -[app flat_db_config]. rewrite Hs, Hsave. cbn -[flat_db_config].
    unfold s1. rewrite <- !app_assoc. reflexivity. }
  split; [exact Hrun |].
  rewrite (new_chunks_step_attempt self prev bh h rest s0 c pch Hc Hn), Hrun.
  reflexivity.
Qed.

(** On [good_node true true], whose store refuses every write, the attempt
    for the shard 0 chunk of block 50 stops at the save, and the loop counts
    and logs it and moves on to the shard 2 chunk. *)
Lemma failed_save_aborts_attempt_witness :
  let w := {| chunk_producer := "alice.near"%string;
              witness_prev_block_header := block_header Sample.block40;
              main_state_transition_prev_chunk_header := Sample.hdr 0 4;
              witness_chunk := Sample.body (Sample.hdr 0 5);
              new_transactions_validation_state := Some [150] |} in
  save_latest_chunk_state_witness (Sample.good_node true true) w = Err (IOErr "disk full") /\
  fst (shadow_validate_chunk (Sample.good_node true true) (block_header Sample.block40)
         (Sample.hdr 0 4) (Sample.body (Sample.hdr 0 5))
         (attempt_state (Sample.hdr 0 5) Sample.s0)) = Raise (IOErr "disk full") /\
  shadow_validate_new_chunks (Sample.good_node true true) Sample.block40 50
    [Sample.hdr 0 5; Sample.hdr 2 5] Sample.s0 =
  shadow_validate_new_chunks (Sample.good_node true true) Sample.block40 50 [Sample.hdr 2 5]
    {| failed_total := 1; pool := [];
       events := [EvGetChunkFromHeader (Sample.hdr 0 5); EvAttempt (Sample.hdr 0 5);
                  EvGetChunk 140;
                  EvValidatePreparedTransactions (flat_db_config (Sample.body (Sample.hdr 0 5)));
                  EvCreateStateWitness "alice.near"%string;
                  EvSaveLatestWitness w;
                  EvLogError (IOErr "disk full") 0 50] |}.
Proof.
  intros w.
  destruct (failed_save_aborts_attempt (Sample.good_node true true) Sample.block40 50
              (Sample.hdr 0 5) [Sample.hdr 2 5] (Sample.body (Sample.hdr 0 5)) (Sample.hdr 0 4)
              Sample.s0 (Sample.body (Sample.hdr 0 4))
              {| prepared_transactions := [150]; storage_proof := Some [150] |}
              w (IOErr "disk full")
              eq_refl eq_refl eq_refl eq_refl eq_refl eq_refl eq_refl) as [Hrun Hloop].
  split; [reflexivity | split].
  - rewrite Hrun. reflexivity.
  - exact Hloop.
Defined.

(** C5 (as stated: refuted).  Block 51 has a new chunk for shard 4 while
    its predecessor block 40 has four chunks: the [unwrap] of the lookup
    panics. *)
Lemma prev_chunk_lookup_panics :
  fst (shadow_validate_block_chunks (Sample.good_node true false) Sample.block51 Sample.s0) = Panic.
Proof. vm_compute. reflexivity. Qed.

(** C5 (amended).  The previous chunk header is looked up by position, the
    fetched chunk's shard id, in the previous block's chunk list, and the
    result is unwrapped: a panic of the call always comes from a new chunk
    whose shard id has no position there; the call's errors come from
    fetching chunk bodies, never from this lookup; and once the loop reaches
    a new chunk (every earlier new chunk fetched with its shard id in range),
    a body whose shard id is out of range makes the call panic, with that
    chunk and the later ones unattempted. *)
Theorem prev_chunk_lookup_by_position self block prev s :
  feature_shadow_chunk_validation self = true ->
  get_block self (prev_hash (block_header block)) = Ok prev ->
  (fst (shadow_validate_block_chunks self block s) = Panic ->
     exists h c, In h (new_chunks block) /\ get_chunk_clone_from_header self h = Ok c /\
                 nth_error (block_chunks prev) (chunk_shard_id c) = None) /\
  (forall e, fst (shadow_validate_block_chunks self block s) = Raise e ->
     exists h, In h (new_chunks block) /\ get_chunk_clone_from_header self h = Err e) /\
  (forall pre h post c,
     new_chunks block = pre ++ h :: post ->
     (forall h', In h' pre ->
        exists c', get_chunk_clone_from_header self h' = Ok c' /\
                   nth_error (block_chunks prev) (chunk_shard_id c') <> None) ->
     get_chunk_clone_from_header self h = Ok c ->
     nth_error (block_chunks prev) (chunk_shard_id c) = None ->
     fst (shadow_validate_block_chunks self block s) = Panic /\
     exists evs, events (snd (shadow_validate_block_chunks self block s)) = events s ++ evs /\
       attempted evs = pre).
Proof.
  intros Hf Hb.
  destruct (block_chunks_run self block prev s Hf Hb) as [Hfst Hsnd].
  rewrite Hfst, Hsnd. clear Hfst Hsnd.
  match goal with
  | |- context [shadow_validate_new_chunks self prev ?bh ?l ?s1] =>
      set (st := s1)
  end.
  split; [| split].
  - pose proof (shadow_validate_new_chunks_spec self prev (block_hash block) (new_chunks block) st)
      as Hl.
    destruct (shadow_validate_new_chunks self prev (block_hash block) (new_chunks block) st)
      as [r s2].
    destruct Hl as (evs & ts & _ & _ & _ & _ & _ & _ & Hpanic & _).
    destruct r as [[] | e |]; cbn; try discriminate. intros _. apply Hpanic; reflexivity.
  - pose proof (shadow_validate_new_chunks_spec self prev (block_hash block) (new_chunks block) st)
      as Hl.
    destruct (shadow_validate_new_chunks self prev (block_hash block) (new_chunks block) st)
      as [r s2].
    destruct Hl as (evs & ts & _ & _ & _ & _ & _ & Hraise & _).
    destruct r as [[] | e |]; cbn; try discriminate.
    intros e' He'. injection He' as <-. apply Hraise; reflexivity.
  - intros pre h post c Hnew Hpre Hc Hn. rewrite Hnew.
    destruct (new_chunks_prefix self prev (block_hash block) pre (h :: post) st Hpre)
      as (s1 & evs & Hev & _ & Ha1 & Hrun).
    rewrite Hrun, (new_chunks_step_lookup_none self prev (block_hash block) h post s1 c Hc Hn).
    cbn -[app]. split; [reflexivity |].
    exists ([EvLogDebug "shadow validation for block chunks";
             EvGetBlock (prev_hash (block_header block))] ++ evs ++ [EvGetChunkFromHeader h]).
    rewrite Hev. unfold st. cbn -[app]. rewrite <- !app_assoc.
    split; [reflexivity |].
    rewrite !attempted_app, Ha1. cbn. apply app_nil_r.
Qed.

(** Block 51 has new chunks for shards 0, 2 and 4; the first two have
    predecessors in block 40, the third has none: the call panics there. *)
Lemma prev_chunk_lookup_by_position_witness :
  feature_shadow_chunk_validation (Sample.good_node true false) = true /\
  get_block (Sample.good_node true false) 40 = Ok Sample.block40 /\
  new_chunks Sample.block51 = [Sample.hdr 0 5; Sample.hdr 2 5] ++ Sample.hdr 4 5 :: [] /\
  get_chunk_clone_from_header (Sample.good_node true false) (Sample.hdr 4 5)
    = Ok (Sample.body (Sample.hdr 4 5)) /\
  nth_error (block_chunks Sample.block40) (chunk_shard_id (Sample.body (Sample.hdr 4 5))) = None /\
  fst (shadow_validate_block_chunks (Sample.good_node true false) Sample.block51 Sample.s0) = Panic /\
  exists evs,
    events (snd (shadow_validate_block_chunks (Sample.good_node true false) Sample.block51 Sample.s0))
    = events Sample.s0 ++ evs /\ attempted evs = [Sample.hdr 0 5; Sample.hdr 2 5].
Proof.
  pose proof (prev_chunk_lookup_by_position (Sample.good_node true false) Sample.block51
                Sample.block40 Sample.s0 eq_refl eq_refl) as (_ & _ & Hpos).
  split; [reflexivity | split; [reflexivity | split; [reflexivity |
    split; [reflexivity | split; [reflexivity |]]]]].
  apply (Hpos [Sample.hdr 0 5; Sample.hdr 2 5] (Sample.hdr 4 5) [] (Sample.body (Sample.hdr 4 5)));
    [reflexivity | | reflexivity | reflexivity].
  intros h' Hin. destruct Hin as [<- | [<- | []]].
  - exists (Sample.body (Sample.hdr 0 5)). split; [reflexivity | discriminate].
  - exists (Sample.body (Sample.hdr 2 5)). split; [reflexivity | discriminate].
Defined.




(** C7.  The storage configuration handed to
    [validate_prepared_transactions] in a chunk attempt (at most one) points
    at the chunk header's [prev_state_root], uses flat storage, reads from
    [Db] and carries the default, empty state patch. *)
Theorem storage_config_flat_db self pbh pch c s :
  let '(r, s') := shadow_validate_chunk self pbh pch c s in
  exists evs, events s' = events s ++ evs /\ List.length (storage_configs evs) <= 1 /\
    Forall (fun cfg => state_root cfg = prev_state_root (chunk_header c) /\
                       use_flat_storage cfg = true /\ source cfg = Db /\
                       state_patch cfg = default_state_patch)
           (storage_configs evs).
Proof.
  unfold shadow_validate_chunk, bind, emit, observe_on_drop, try_, unwrap_result, ret, spawn.
  split_calls;
    cbn -[app]; repeat rewrite <- app_assoc; cbn [app];
    eexists; (split; [reflexivity |]);
    (split; [cbn; auto |]);
    repeat (apply Forall_cons || apply Forall_nil); cbn; auto.
Qed.

(** C8.  Pre-validation and the queued full validation only ever receive
    the witness [create_state_witness] returned in this attempt, never the
    decoded copy; when decoding the encoded witness fails, the attempt
    returns that error with nothing pre-validated and nothing queued. *)
Theorem original_witness_flows_downstream self pbh pch c s :
  let '(r, s') := shadow_validate_chunk self pbh pch c s in
  exists evs ts, events s' = events s ++ evs /\ pool s' = pool s ++ ts /\
    Forall (created self pbh pch c) (pre_validated evs) /\
    Forall (fun t => created self pbh pch c (task_witness t)) ts /\
    (forall enc e, In (EvDecode enc) evs -> decode self enc = Err e ->
       r = Raise e /\ ts = [] /\ pre_validated evs = []).
Proof.
  unfold shadow_validate_chunk, bind, emit, observe_on_drop, try_, unwrap_result, ret, spawn.
  split_calls;
    cbn -[app]; repeat rewrite <- app_assoc; cbn [app];
    do 2 eexists;
    (split; [reflexivity |]);
    (split; [first [reflexivity | symmetry; apply app_nil_r] |]);
    (split; [finish_foralls |]);
    (split; [finish_foralls |]);
    intros enc e' Hin Hd; cbn in Hin;
    repeat (destruct Hin as [Hin | Hin]; [try discriminate |]);
    try contradiction;
    match goal with
    | H : EvDecode _ = EvDecode _ |- _ => injection H as <-
    end;
    first [congruence | split; [congruence | split; reflexivity]].
Qed.

Lemma original_witness_flows_downstream_witness :
  let '(r, s') := shadow_validate_chunk (Sample.node true false) (block_header Sample.block40)
                    (Sample.hdr 0 4) (Sample.body (Sample.hdr 0 5)) Sample.s0 in
  exists evs ts, events s' = events Sample.s0 ++ evs /\ pool s' = pool Sample.s0 ++ ts /\
    Forall (created (Sample.node true false) (block_header Sample.block40) (Sample.hdr 0 4)
              (Sample.body (Sample.hdr 0 5))) (pre_validated evs) /\
    Forall (fun t => created (Sample.node true false) (block_header Sample.block40)
                       (Sample.hdr 0 4) (Sample.body (Sample.hdr 0 5)) (task_witness t)) ts /\
    (forall enc e, In (EvDecode enc) evs -> decode (Sample.node true false) enc = Err e ->
       r = Raise e /\ ts = [] /\ pre_validated evs = []).
Proof.
  exact (original_witness_flows_downstream (Sample.node true false) (block_header Sample.block40)
           (Sample.hdr 0 4) (Sample.body (Sample.hdr 0 5)) Sample.s0).
Defined.

(** C9.  Built without the [shadow_chunk_validation] feature, the call
    returns [Ok] and leaves the state untouched: no fetch, no counter
    increment, no queued task, no log line. *)
Theorem feature_off_is_noop self block s :
  feature_shadow_chunk_validation self = false ->
  shadow_validate_block_chunks self block s = (Done tt, s).
Proof.
  intros Hf. unfold shadow_validate_block_chunks. rewrite Hf. reflexivity.
Qed.

Lemma feature_off_is_noop_witness :
  feature_shadow_chunk_validation (Sample.good_node false false) = false /\
  shadow_validate_block_chunks (Sample.good_node false false) Sample.block50 Sample.s0 =
  (Done tt, Sample.s0).
Proof.
  split; [reflexivity |].
  exact (feature_off_is_noop (Sample.good_node false false) Sample.block50 Sample.s0 eq_refl).
Defined.

(** C10.  The literal ["alice.near"] parses to an account id, so the
    [unwrap] before [create_state_witness] never panics: no chunk attempt
    panics, whatever the collaborators do. *)
Theorem placeholder_producer_parses :
  parse_account_id "alice.near" = Ok "alice.near"%string /\
  forall self pbh pch c s, fst (shadow_validate_chunk self pbh pch c s) <> Panic.
Proof.
  split; [reflexivity |].
  intros self pbh pch c s.
  pose proof (shadow_validate_chunk_spec self pbh pch c s) as H.
  destruct (shadow_validate_chunk self pbh pch c s) as [r s'].
  exact (proj1 H).
Qed.

Lemma placeholder_producer_parses_witness :
  parse_account_id "alice.near" = Ok "alice.near"%string /\
  fst (shadow_validate_chunk (Sample.node true true) (block_header Sample.block40)
         (Sample.hdr 0 4) (Sample.body (Sample.hdr 0 5)) Sample.s0) <> Panic.
Proof.
  split; [exact (proj1 placeholder_producer_parses) |].
  apply (proj2 placeholder_producer_parses).
Defined.

(** ** Further properties of the code *)

Fixpoint error_logs (evs : list Event) : list (Error * ShardId * CryptoHash) :=
  match evs with
  | [] => []
  | EvLogError err sh h :: rest => (err, sh, h) :: error_logs rest
  | _ :: rest => error_logs rest
  end.

Fixpoint saved (evs : list Event) : list ChunkStateWitness :=
  match evs with
  | [] => []
  | EvSaveLatestWitness w :: rest => w :: saved rest
  | _ :: rest => saved rest
  end.

Lemma error_logs_app l m : error_logs (l ++ m) = error_logs l ++ error_logs m.
Proof. induction l as [| [] l IH]; cbn; rewrite ?IH; reflexivity. Qed.

(** One attempt either succeeds having queued exactly one task, labelled
    with the chunk's shard id and hash, or fails having queued none; it
    never touches the counter and logs no error line itself. *)
Lemma shadow_validate_chunk_outcome self pbh pch c s :
  let '(r, s') := shadow_validate_chunk self pbh pch c s in
  failed_total s' = failed_total s /\
  (exists evs, events s' = events s ++ evs /\ error_logs evs = [] /\ attempted evs = []) /\
  ((r = Done tt /\
    exists t, pool s' = pool s ++ [t] /\ task_shard_id t = chunk_shard_id c /\
              task_chunk_hash t = chunk_chunk_hash c) \/
   (exists e, r = Raise e /\ pool s' = pool s)).
Proof.
  unfold shadow_validate_chunk, bind, emit, observe_on_drop, try_, unwrap_result, ret, spawn.
  split_calls;
    (split; [reflexivity |]);
    cbn -[app]; repeat rewrite <- app_assoc; cbn [app];
    (split; [eexists; split; [reflexivity | split; reflexivity] |]);
    first [ left; split; [reflexivity | eexists; split; [reflexivity | split; reflexivity]]
          | right; eexists; split; reflexivity ].
Qed.

(** The task a loop iteration queues is built from a new chunk's fetched
    body, the previous block's header and the previous chunk header found
    at the chunk's shard id. *)
Definition task_provenance (self : Client) (prev : Block) (chunks : list ShardChunkHeader)
    (t : Task) : Prop :=
  exists h c pch, In h chunks /\ get_chunk_clone_from_header self h = Ok c /\
    nth_error (block_chunks prev) (chunk_shard_id c) = Some pch /\
    created self (block_header prev) pch c (task_witness t).

Lemma task_provenance_cons self prev h rest t :
  task_provenance self prev rest t -> task_provenance self prev (h :: rest) t.
Proof.
  intros (h' & c & pch & Hin & Hc & Hn & Hcr). exists h', c, pch. cbn. auto.
Qed.

Lemma shadow_validate_new_chunks_facts self prev bh chunks s :
  let '(r, s') := shadow_validate_new_chunks self prev bh chunks s in
  exists evs ts,
    events s' = events s ++ evs /\ pool s' = pool s ++ ts /\
    failed_total s' = failed_total s + List.length (error_logs evs) /\
    List.length (error_logs evs) + List.length ts = List.length (attempted evs) /\
    Forall (fun l => snd l = bh) (error_logs evs) /\
    Forall (task_provenance self prev chunks) ts.
Proof.
  revert s; induction chunks as [| h rest IH]; intro s.
  - cbn. exists [], []. rewrite !app_nil_r. cbn.
    repeat split; try lia; constructor.
  - cbn -[app shadow_validate_chunk].
    destruct (get_chunk_clone_from_header self h) as [c | e] eqn:Ec; cbn -[app shadow_validate_chunk].
    + destruct (nth_error (block_chunks prev) (chunk_shard_id c)) as [pch |] eqn:En;
        cbn -[app shadow_validate_chunk].
      * cbv [bind catch]; cbn -[app shadow_validate_chunk shadow_validate_new_chunks].
        match goal with
        | |- context [shadow_validate_chunk ?a ?b ?c ?d ?e] =>
            pose proof (shadow_validate_chunk_outcome a b c d e) as Ho;
            pose proof (shadow_validate_chunk_spec a b c d e) as Hc;
            destruct (shadow_validate_chunk a b c d e) as [r1 s1]
        end.
        destruct Ho as (Hft1 & (evs1 & Hev1 & Hel1 & Ha1) & Hout).
        destruct Hc as (Hnp & _ & evs1' & ts1 & Hev1' & Hts1 & _ & Hts1ok & _ & _).
        cbn in Hft1, Hev1, Hts1.
        assert (Hprov : Forall (task_provenance self prev (h :: rest)) ts1).
        { eapply Forall_impl; [| exact Hts1ok]. intros t [_ Hcr].
          exists h, c, pch. cbn. auto. }
        destruct r1 as [[] | e1 |]; [| | contradiction].
        -- destruct Hout as [(_ & t & Hp & _) | (e & He & _)]; [| discriminate].
           rewrite Hts1 in Hp. apply app_inv_head in Hp. subst ts1.
           specialize (IH s1).
           destruct (shadow_validate_new_chunks self prev bh rest s1) as [r2 s2].
           destruct IH as (evs2 & ts2 & Hev2 & Hts2 & Hft2 & Hcnt & Htag & Hok).
           exists (EvGetChunkFromHeader h :: EvAttempt h :: evs1 ++ evs2), (t :: ts2).
           rewrite Hev2, Hev1, Hts2, Hts1, <- !app_assoc. cbn.
           rewrite error_logs_app, attempted_app, Hel1, Ha1. cbn.
           refine (conj eq_refl (conj eq_refl (conj _ (conj _ (conj _ _))))).
           ++ rewrite Hft2, Hft1. reflexivity.
           ++ lia.
           ++ exact Htag.
           ++ inversion Hprov as [| ? ? Ht _]; subst.
              constructor; [exact Ht |].
              eapply Forall_impl; [| exact Hok]. apply task_provenance_cons.
        -- destruct Hout as [(Hd & _) | (e & He & Hp)]; [discriminate |].
           injection He as <-.
           rewrite Hts1 in Hp. rewrite <- (app_nil_r (pool s)) in Hp at 2.
           apply app_inv_head in Hp. subst ts1.
           cbn -[app].
           match goal with
           | |- context [shadow_validate_new_chunks self prev bh rest ?s2] =>
               specialize (IH s2); destruct (shadow_validate_new_chunks self prev bh rest s2) as [r2 s3]
           end.
           destruct IH as (evs2 & ts2 & Hev2 & Hts2 & Hft2 & Hcnt & Htag & Hok).
           cbn in Hev2, Hts2, Hft2.
           exists (EvGetChunkFromHeader h :: EvAttempt h :: evs1 ++ EvLogError e1 (chunk_shard_id c) bh :: evs2),
                  ts2.
           rewrite Hev2, Hev1, Hts2, Hts1, <- !app_assoc. cbn.
           rewrite error_logs_app, attempted_app, Hel1, Ha1. cbn.
           refine (conj eq_refl (conj eq_refl (conj _ (conj _ (conj _ _))))).
           ++ rewrite Hft2, Hft1. lia.
           ++ lia.
           ++ constructor; [reflexivity | exact Htag].
           ++ eapply Forall_impl; [| exact Hok]. apply task_provenance_cons.
      * exists [EvGetChunkFromHeader h], []. rewrite !app_nil_r. cbn.
        repeat split; try lia; constructor.
    + exists [EvGetChunkFromHeader h], []. rewrite !app_nil_r. cbn.
      repeat split; try lia; constructor.
Qed.

Lemma shadow_validate_block_chunks_facts self block s :
  let '(r, s') := shadow_validate_block_chunks self block s in
  exists evs ts, events s' = events s ++ evs /\ pool s' = pool s ++ ts /\
    failed_total s' = failed_total s + List.length (error_logs evs) /\
    List.length (error_logs evs) + List.length ts = List.length (attempted evs) /\
    Forall (fun l => snd l = block_hash block) (error_logs evs) /\
    Forall (fun t => exists prev, get_block self (prev_hash (block_header block)) = Ok prev /\
                                  task_provenance self prev (new_chunks block) t) ts /\
    Forall (prevalidated_task self) ts.
Proof.
  unfold shadow_validate_block_chunks.
  destruct (feature_shadow_chunk_validation self) eqn:Hf; cbn -[app].
  - cbv [bind emit try_ ret].
    destruct (get_block self (prev_hash (block_header block))) as [prev | e] eqn:Hb.
    + cbn -[app shadow_validate_new_chunks new_chunks].
      match goal with
      | |- context [shadow_validate_new_chunks self prev ?bh ?l ?s1] =>
          pose proof (shadow_validate_new_chunks_facts self prev bh l s1) as Hx;
          pose proof (shadow_validate_new_chunks_spec self prev bh l s1) as Hy;
          destruct (shadow_validate_new_chunks self prev bh l s1) as [r s2]
      end.
      destruct Hx as (evs & ts & Hev & Hts & Hft & Hcnt & Htag & Hprov).
      destruct Hy as (evs' & ts' & _ & Hts' & _ & _ & _ & _ & _ & Hok).
      rewrite Hts in Hts'. apply app_inv_head in Hts'. subst ts'.
      cbn in Hev, Hts, Hft.
      destruct r as [[] | e |]; cbn;
        exists (EvLogDebug "shadow validation for block chunks"
                :: EvGetBlock (prev_hash (block_header block)) :: evs), ts;
        rewrite Hev; cbn; rewrite <- !app_assoc; cbn;
        refine (conj eq_refl (conj Hts (conj Hft (conj Hcnt (conj Htag (conj _ Hok))))));
        (eapply Forall_impl; [| exact Hprov]; intros t Ht; exists prev; auto).
    + cbn. exists [EvLogDebug "shadow validation for block chunks";
                   EvGetBlock (prev_hash (block_header block))], [].
      rewrite <- app_assoc, !app_nil_r. cbn.
      repeat split; try lia; constructor.
  - exists [], []. rewrite !app_nil_r. cbn.
    repeat split; try lia; constructor.
Qed.

(** X1.  A chunk attempt returns [Ok] exactly when it queued one
    full-validation task, labelled with the chunk's shard id and hash; when
    it returns an error it queued nothing.  It never changes the failure
    counter itself. *)
Theorem chunk_attempt_ok_iff_queued self pbh pch c s :
  let '(r, s') := shadow_validate_chunk self pbh pch c s in
  failed_total s' = failed_total s /\
  ((r = Done tt /\
    exists t, pool s' = pool s ++ [t] /\ task_shard_id t = chunk_shard_id c /\
              task_chunk_hash t = chunk_chunk_hash c) \/
   (exists e, r = Raise e /\ pool s' = pool s)).
Proof.
  pose proof (shadow_validate_chunk_outcome self pbh pch c s) as H.
  destruct (shadow_validate_chunk self pbh pch c s) as [r s'].
  destruct H as (Hft & _ & Hout). exact (conj Hft Hout).
Qed.

(** X2.  Each chunk the loop attempts ends in exactly one of two ways:
    either a counted failure (the counter grows by one, one error line with
    the chunk's shard id and the block's hash is logged, nothing is queued)
    or a queued full validation (one task labelled with the chunk's shard id
    and hash is queued, the counter and the error log are unchanged); then
    the loop goes on with the next chunk. *)
Theorem attempts_end_counted_or_queued self prev bh h rest c pch s :
  get_chunk_clone_from_header self h = Ok c ->
  nth_error (block_chunks prev) (chunk_shard_id c) = Some pch ->
  exists s1, shadow_validate_new_chunks self prev bh (h :: rest) s =
             shadow_validate_new_chunks self prev bh rest s1 /\
    attempted (events s1) = attempted (events s) ++ [h] /\
    ((failed_total s1 = S (failed_total s) /\ pool s1 = pool s /\
      exists e, error_logs (events s1) = error_logs (events s) ++ [(e, chunk_shard_id c, bh)]) \/
     (failed_total s1 = failed_total s /\ error_logs (events s1) = error_logs (events s) /\
      exists t, pool s1 = pool s ++ [t] /\ task_shard_id t = chunk_shard_id c /\
                task_chunk_hash t = chunk_chunk_hash c)).
Proof.
  intros Hc Hn.
  rewrite (new_chunks_step_attempt self prev bh h rest s c pch Hc Hn).
  pose proof (shadow_validate_chunk_outcome self (block_header prev) pch c (attempt_state h s)) as Ho.
  destruct (shadow_validate_chunk self (block_header prev) pch c (attempt_state h s)) as [r1 s1].
  destruct Ho as (Hft & (evs & Hev & Hel & Ha) & Hout).
  cbn in Hft, Hev.
  destruct Hout as [(-> & t & Hp & Hsh & Hch) | (e & -> & Hp)].
  - exists s1. split; [reflexivity |].
    rewrite Hev, <- app_assoc, attempted_app, error_logs_app, attempted_app, error_logs_app,
      Ha, Hel. cbn. rewrite ?app_nil_r.
    split; [reflexivity |]. right.
    cbn in Hp. split; [exact Hft | split; [reflexivity |]]. exists t. auto.
  - eexists. split; [reflexivity |]. cbn.
    rewrite Hev, <- !app_assoc, !attempted_app, !error_logs_app, Ha, Hel. cbn.
    rewrite ?app_nil_r.
    split; [reflexivity |]. left.
    cbn in Hp. rewrite Hft, Hp. split; [reflexivity | split; [reflexivity |]].
    exists e. reflexivity.
Qed.

Lemma attempts_end_counted_or_queued_witness :
  get_chunk_clone_from_header (Sample.good_node true false) (Sample.hdr 0 5)
    = Ok (Sample.body (Sample.hdr 0 5)) /\
  nth_error (block_chunks Sample.block40) (chunk_shard_id (Sample.body (Sample.hdr 0 5)))
    = Some (Sample.hdr 0 4) /\
  exists s1, shadow_validate_new_chunks (Sample.good_node true false) Sample.block40 50
               [Sample.hdr 0 5; Sample.hdr 2 5] Sample.s0 =
             shadow_validate_new_chunks (Sample.good_node true false) Sample.block40 50
               [Sample.hdr 2 5] s1 /\
    attempted (events s1) = attempted (events Sample.s0) ++ [Sample.hdr 0 5] /\
    ((failed_total s1 = S (failed_total Sample.s0) /\ pool s1 = pool Sample.s0 /\
      exists e, error_logs (events s1) = error_logs (events Sample.s0) ++ [(e, 0, 50)]) \/
     (failed_total s1 = failed_total Sample.s0 /\
      error_logs (events s1) = error_logs (events Sample.s0) /\
      exists t, pool s1 = pool Sample.s0 ++ [t] /\ task_shard_id t = 0 /\ task_chunk_hash t = 150)).
Proof.
  split; [reflexivity | split; [reflexivity |]].
  exact (attempts_end_counted_or_queued (Sample.good_node true false) Sample.block40 50
           (Sample.hdr 0 5) [Sample.hdr 2 5] (Sample.body (Sample.hdr 0 5)) (Sample.hdr 0 4)
           Sample.s0 eq_refl eq_refl).
Defined.

(** X3.  Every full-validation task the per-block call queues carries a
    witness whose pre-validation returned [Ok], with that result. *)
Theorem block_tasks_prevalidated self block s :
  let '(r, s') := shadow_validate_block_chunks self block s in
  exists ts, pool s' = pool s ++ ts /\ Forall (prevalidated_task self) ts.
Proof.
  pose proof (shadow_validate_block_chunks_facts self block s) as H.
  destruct (shadow_validate_block_chunks self block s) as [r s'].
  destruct H as (evs & ts & _ & Hts & _ & _ & _ & _ & Hok). exists ts. auto.
Qed.

(** X4.  The per-block call increments the failure counter once per error
    line it logs, and each of those lines carries the block's hash. *)
Theorem failures_counted_and_logged self block s :
  let '(r, s') := shadow_validate_block_chunks self block s in
  exists evs, events s' = events s ++ evs /\
    failed_total s' = failed_total s + List.length (error_logs evs) /\
    Forall (fun l => snd l = block_hash block) (error_logs evs).
Proof.
  pose proof (shadow_validate_block_chunks_facts self block s) as H.
  destruct (shadow_validate_block_chunks self block s) as [r s'].
  destruct H as (evs & ts & Hev & _ & Hft & _ & Htag & _). exists evs. auto.
Qed.

(** X5.  Every witness queued for full validation by the per-block call was
    built by [create_state_witness] on the header of the fetched previous
    block, for the fetched body of one of the block's new chunks, with the
    previous block's chunk header at that chunk's shard id. *)
Theorem queued_witnesses_built_on_prev_block self block s :
  let '(r, s') := shadow_validate_block_chunks self block s in
  exists ts, pool s' = pool s ++ ts /\
    Forall (fun t => exists prev, get_block self (prev_hash (block_header block)) = Ok prev /\
                                  task_provenance self prev (new_chunks block) t) ts.
Proof.
  pose proof (shadow_validate_block_chunks_facts self block s) as H.
  destruct (shadow_validate_block_chunks self block s) as [r s'].
  destruct H as (evs & ts & _ & Hts & _ & _ & _ & Hprov & _). exists ts. auto.
Qed.

(** Block 56 at height 6 after block 50 carries block 50's chunks over
    unchanged: none of them is new at height 6. *)
Definition block56 : Block :=
  {| block_header := {| header_hash := 56; prev_hash := 50; height := 6 |};
     block_chunks := block_chunks Sample.block50 |}.

(** X6.  When no chunk of the block is new, the call with the feature on
    still fetches the previous block and returns that fetch's outcome, and
    does nothing else: no chunk fetch, no counter change, no task. *)
Theorem no_new_chunks_only_fetches_prev_block self block s :
  feature_shadow_chunk_validation self = true ->
  new_chunks block = [] ->
  shadow_validate_block_chunks self block s =
  (match get_block self (prev_hash (block_header block)) with
   | Ok _ => Done tt
   | Err e => Raise e
   end,
   {| failed_total := failed_total s; pool := pool s;
      events := events s ++ [EvLogDebug "shadow validation for block chunks";
                             EvGetBlock (prev_hash (block_header block))] |}).
Proof.
  intros Hf Hn. unfold shadow_validate_block_chunks.
  rewrite Hf. cbv [bind emit try_ ret negb].
  destruct (get_block self (prev_hash (block_header block))); cbn -[app new_chunks];
    rewrite ?Hn; cbn; rewrite <- app_assoc; reflexivity.
Qed.

Lemma no_new_chunks_only_fetches_prev_block_witness :
  feature_shadow_chunk_validation (Sample.good_node true false) = true /\
  new_chunks block56 = [] /\
  shadow_validate_block_chunks (Sample.good_node true false) block56 Sample.s0 =
  (Done tt, {| failed_total := 0; pool := [];
               events := [EvLogDebug "shadow validation for block chunks"; EvGetBlock 50] |}).
Proof.
  split; [reflexivity | split; [reflexivity |]].
  exact (no_new_chunks_only_fetches_prev_block (Sample.good_node true false) block56 Sample.s0
           eq_refl eq_refl).
Defined.

(** X7.  When the predecessor chunk is fetched but preparing the
    transactions fails, the attempt stops right there with the fixed error
    [Other "Could not produce storage proof for new transactions"], whatever
    the underlying error was. *)
Theorem storage_proof_failure_reported self pbh pch c s last_chunk e :
  get_chunk self (chunk_hash pch) = Ok last_chunk ->
  validate_prepared_transactions self (chunk_cloned_header c) (flat_db_config c)
    (chunk_transactions c) (chunk_transactions last_chunk) = Err e ->
  shadow_validate_chunk self pbh pch c s =
  (Raise (Other "Could not produce storage proof for new transactions"),
   {| failed_total := failed_total s; pool := pool s;
      events := events s ++ [EvGetChunk (chunk_hash pch);
                             EvValidatePreparedTransactions (flat_db_config c)] |}).
Proof.
  intros Hg Hv.
  unfold shadow_validate_chunk, bind, emit, observe_on_drop, try_, ret.
  cbn -[app flat_db_config validate_prepared_transactions].
  rewrite Hg. cbn -[app flat_db_config validate_prepared_transactions].
  change {| state_root := prev_state_root (chunk_cloned_header c); use_flat_storage := true;
            source := Db; state_patch := default_state_patch |} with (flat_db_config c).
  rewrite Hv. cbn -[flat_db_config]. rewrite <- app_assoc. reflexivity.
Qed.

(** [good_node] whose runtime cannot produce the storage proof. *)
Definition no_proof_node : Client :=
  {| feature_shadow_chunk_validation := true;
     save_latest_witnesses := false;
     get_block := get_block (Sample.good_node true false);
     get_chunk_clone_from_header := get_chunk_clone_from_header (Sample.good_node true false);
     get_chunk := get_chunk (Sample.good_node true false);
     validate_prepared_transactions := fun _ _ _ _ => Err (DBNotFoundErr "flat state");
     create_state_witness := create_state_witness (Sample.good_node true false);
     save_latest_chunk_state_witness := save_latest_chunk_state_witness (Sample.good_node true false);
     encode := encode (Sample.good_node true false);
     decode := decode (Sample.good_node true false);
     pre_validate_chunk_state_witness := pre_validate_chunk_state_witness (Sample.good_node true false);
     validate_chunk_state_witness := validate_chunk_state_witness (Sample.good_node true false) |}.

Lemma storage_proof_failure_reported_witness :
  get_chunk no_proof_node (chunk_hash (Sample.hdr 0 4)) = Ok (Sample.body (Sample.hdr 0 4)) /\
  validate_prepared_transactions no_proof_node
    (chunk_cloned_header (Sample.body (Sample.hdr 0 5))) (flat_db_config (Sample.body (Sample.hdr 0 5)))
    (chunk_transactions (Sample.body (Sample.hdr 0 5)))
    (chunk_transactions (Sample.body (Sample.hdr 0 4))) = Err (DBNotFoundErr "flat state") /\
  fst (shadow_validate_chunk no_proof_node (block_header Sample.block40) (Sample.hdr 0 4)
         (Sample.body (Sample.hdr 0 5)) Sample.s0)
  = Raise (Other "Could not produce storage proof for new transactions").
Proof.
  split; [reflexivity | split; [reflexivity |]].
  rewrite (storage_proof_failure_reported no_proof_node (block_header Sample.block40) (Sample.hdr 0 4)
             (Sample.body (Sample.hdr 0 5)) Sample.s0 (Sample.body (Sample.hdr 0 4))
             (DBNotFoundErr "flat state") eq_refl eq_refl).
  reflexivity.
Defined.

(** X8.  The witness is written to the latest-witness store only when
    [save_latest_witnesses] is set, at most once per attempt; when the flag
    is set and the attempt succeeds, the witness saved is the one queued for
    full validation. *)
Theorem witness_saved_only_when_configured self pbh pch c s :
  let '(r, s') := shadow_validate_chunk self pbh pch c s in
  exists evs, events s' = events s ++ evs /\
    List.length (saved evs) <= (if save_latest_witnesses self then 1 else 0) /\
    (save_latest_witnesses self = true -> r = Done tt ->
       exists t, pool s' = pool s ++ [t] /\ saved evs = [task_witness t]).
Proof.
  unfold shadow_validate_chunk, bind, emit, observe_on_drop, try_, unwrap_result, ret, spawn.
  split_calls;
    cbn -[app]; repeat rewrite <- app_assoc; cbn [app];
    eexists; (split; [reflexivity |]);
    (split; [cbn; rewrite ?Heqb; auto |]);
    intros Hs Hd; try congruence;
    eexists; split; reflexivity.
Qed.

Lemma witness_saved_only_when_configured_witness :
  let '(r, s') := shadow_validate_chunk (Sample.good_node true false) (block_header Sample.block40)
                    (Sample.hdr 0 4) (Sample.body (Sample.hdr 0 5)) Sample.s0 in
  exists evs, events s' = events Sample.s0 ++ evs /\
    List.length (saved evs) <= (if save_latest_witnesses (Sample.good_node true false) then 1 else 0) /\
    (save_latest_witnesses (Sample.good_node true false) = true -> r = Done tt ->
       exists t, pool s' = pool Sample.s0 ++ [t] /\ saved evs = [task_witness t]).
Proof.
  exact (witness_saved_only_when_configured (Sample.good_node true false) (block_header Sample.block40)
           (Sample.hdr 0 4) (Sample.body (Sample.hdr 0 5)) Sample.s0).
Defined.
